(** * TeamForm: the team-member create/edit form

    A shallow embedding of [src/pages/team/TeamForm.jsx]: the yup schema,
    the two effects (reset on fetched data, image preview), the submit
    handler with its try/catch, and the conditional parts of the render.
    The component is modelled as a state record stepped by the events the
    browser, the query layer and the user deliver to it. *)

From Stdlib Require Import String Ascii List Bool Arith Lia.
Import ListNotations.
Local Open Scope string_scope.
Local Open Scope list_scope.

(** ** The JavaScript values the form handles *)

Module Js.

(** A local file picked in the file input. *)
Record File := { file_name : string }.

(** What the [image] slot of the form, the fetched record or a piece of
    component state can hold: [undefined], [null], a string, an image
    reference object with optional [public_url] / [url], or the
    [FileList] of the file input. *)
Inductive value :=
| Undefined
| Null
| Str (s : string)
| Obj (public_url url : option string)
| Files (fs : list File).

Definition nonempty (s : string) : bool :=
  match s with EmptyString => false | String _ _ => true end.

(** [if (v)] *)
Definition truthy (v : value) : bool :=
  match v with
  | Undefined | Null => false
  | Str s => nonempty s
  | Obj _ _ | Files _ => true
  end.

(** [if (id)] for a route parameter: [undefined] or a string. *)
Definition truthy_param (p : option string) : bool :=
  match p with Some s => nonempty s | None => false end.

(** [v.length]; [None] is [undefined]. Only reached on truthy values. *)
Definition length (v : value) : option nat :=
  match v with
  | Str s => Some (String.length s)
  | Files fs => Some (List.length fs)
  | _ => None
  end.

(** [n > 0], where [undefined > 0] is [false]. *)
Definition gt0 (n : option nat) : bool :=
  match n with Some k => Nat.ltb 0 k | None => false end.

(** [v && v.length > 0], taken as a condition. *)
Definition has_items (v : value) : bool :=
  truthy v && gt0 (length v).

(** The result of [v[0]]. *)
Inductive item :=
| ItemFile (f : File)
| ItemStr (s : string)
| ItemUndefined.

Definition item0 (v : value) : item :=
  match v with
  | Files (f :: _) => ItemFile f
  | Str (String c _) => ItemStr (String c EmptyString)
  | _ => ItemUndefined
  end.

(** [a || b] on values. *)
Definition or_else (a b : value) : value := if truthy a then a else b.

(** [s || ""] for an optional string field. *)
Definition or_empty (s : option string) : string :=
  match s with Some x => x | None => "" end.

End Js.

(** ** Form values (react-hook-form's value object) *)

Module Form.

(** The four text inputs, the file input, and the two hidden values
    [id] and [existingImage] that only [reset] writes. *)
Record values := {
  name : string;
  designation : string;
  department : string;
  description : string;
  image : Js.value;
  id : option string;
  existingImage : Js.value
}.

(** [defaultValues] of [useForm]. *)
Definition defaultValues : values :=
  {| name := ""; designation := ""; department := ""; description := "";
     image := Js.Null; id := None; existingImage := Js.Undefined |}.

Record errors := {
  e_name : option string;
  e_designation : option string;
  e_department : option string;
  e_description : option string;
  e_image : option string
}.

Definition no_errors : errors :=
  {| e_name := None; e_designation := None; e_department := None;
     e_description := None; e_image := None |}.

Definition is_valid (e : errors) : bool :=
  match e_name e, e_designation e, e_department e, e_description e, e_image e with
  | None, None, None, None, None => true
  | _, _, _, _, _ => false
  end.

End Form.

(** ** The validation schema *)

Module Yup.

(** [yup.string()], optionally [.required(msg)]. *)
Record string_schema := { required : option string }.

(** [yup.mixed().test(name, msg, fn)] for the field at [path]: [fn] sees
    the sibling values ([this.parent]) and the field's own value; a falsy
    result fails the field with [msg]. A schema is not nullable unless
    [.nullable()] is called on it. *)
Record mixed_schema := {
  path : string;
  nullable : bool;
  test_name : string;
  test_message : string;
  test_fn : Form.values -> Js.value -> bool
}.

Definition string_ : string_schema := {| required := None |}.

Definition validate_string (s : string_schema) (v : string) : option string :=
  match required s with
  | Some msg => if Js.nonempty v then None else Some msg
  | None => None
  end.

(** The message of yup's own null check. *)
Definition not_null_message (path : string) : string :=
  path ++ " cannot be null".

(** A [null] value of a schema that is not nullable fails with yup's
    "cannot be null" message before any test runs; [undefined] is let
    through (a schema is optional by default) and reaches the test. *)
Definition validate_mixed (s : mixed_schema) (parent : Form.values)
           (v : Js.value) : option string :=
  match v with
  | Js.Null =>
      if nullable s
      then (if test_fn s parent v then None else Some (test_message s))
      else Some (not_null_message (path s))
  | _ => if test_fn s parent v then None else Some (test_message s)
  end.

Record object_schema := {
  s_name : string_schema;
  s_designation : string_schema;
  s_department : string_schema;
  s_description : string_schema;
  s_image : mixed_schema
}.

(** Every field is validated against the whole object (no early abort). *)
Definition validate (s : object_schema) (v : Form.values) : Form.errors :=
  {| Form.e_name := validate_string (s_name s) (Form.name v);
     Form.e_designation := validate_string (s_designation s) (Form.designation v);
     Form.e_department := validate_string (s_department s) (Form.department v);
     Form.e_description := validate_string (s_description s) (Form.description v);
     Form.e_image := validate_mixed (s_image s) v (Form.image v) |}.

End Yup.

(** The callback of the [image] test (lines 22-27). *)
Definition image_test (parent : Form.values) (value : Js.value) : bool :=
  if Js.truthy_param (Form.id parent) && Js.truthy (Form.existingImage parent)
  then true
  else Js.has_items value.

Definition schema : Yup.object_schema :=
  {| Yup.s_name := {| Yup.required := Some "Name is required" |};
     Yup.s_designation := Yup.string_;
     Yup.s_department := Yup.string_;
     Yup.s_description := Yup.string_;
     Yup.s_image := {| Yup.path := "image";
                       Yup.nullable := false;
                       Yup.test_name := "required";
                       Yup.test_message := "Image is required";
                       Yup.test_fn := image_test |} |}.

(** ** The record served by the fetch-by-id query *)

(** The stored image reference as JSON delivers it: a plain string, an
    object with [public_url] / [url], or [null]. A missing key is [None]
    in [TeamRecord]. JSON cannot carry a [FileList]. *)
Inductive ImageRef :=
| RefNull
| RefStr (s : string)
| RefObj (public_url url : option string).

(** [teamData.data]; a key that is absent reads as [undefined]. *)
Record TeamRecord := {
  r_name : option string;
  r_designation : option string;
  r_department : option string;
  r_description : option string;
  r_image : option ImageRef
}.

Definition of_ref (r : option ImageRef) : Js.value :=
  match r with
  | None => Js.Undefined
  | Some RefNull => Js.Null
  | Some (RefStr s) => Js.Str s
  | Some (RefObj p u) => Js.Obj p u
  end.

(** ** Effects of the submit handler *)

(** One entry of the multipart payload. *)
Inductive Part :=
| Text (s : string)
| Blob (f : Js.File).

(** A [FormData]: entries in append order. *)
Definition FormData := list (string * Part).

(** [payload.append(key, v)]: appends, never replaces. *)
Definition append (payload : FormData) (key : string) (v : Part) : FormData :=
  payload ++ [(key, v)].

(** What [FormData.append] stores for a value: a file stays a file,
    anything else is stored as its string form. *)
Definition to_part (i : Js.item) : Part :=
  match i with
  | Js.ItemFile f => Blob f
  | Js.ItemStr s => Text s
  | Js.ItemUndefined => Text "undefined"
  end.

(** The value a rejected mutation throws: [err.data.message] may be
    missing at either level. *)
Record ErrData := { message : option string }.
Record Err := { data : option ErrData }.

(** [err?.data?.message] *)
Definition err_message (err : Err) : option string :=
  match data err with Some d => message d | None => None end.

(** [m || fallback] for an optional string. *)
Definition or_default (m : option string) (fallback : string) : string :=
  match m with
  | Some s => if Js.nonempty s then s else fallback
  | None => fallback
  end.

Inductive Request :=
| CreateTeam (formData : FormData)
| UpdateTeam (id : option string) (formData : FormData).

(** What the server answers to one mutation. *)
Inductive Settle :=
| Fulfilled
| Rejected (err : Err).

(** The observable effects, in the order they happen. *)
Inductive Effect :=
| Sent (r : Request)
| Resolved
| Failed (err : Err)
| ToastSuccess (msg : string)
| ToastError (msg : string)
| Navigate (path : string).

Definition Trace := list Effect.

(** A handler body: it extends the trace, then returns or throws.
    Effects emitted before a throw stay emitted. *)
Module Act.

Inductive completion (A : Type) :=
| Returned (a : A)
| Thrown (e : Err).
Arguments Returned {A} a.
Arguments Thrown {A} e.

Definition t (A : Type) : Type := Trace -> Trace * completion A.

Definition ret {A} (a : A) : t A := fun tr => (tr, Returned a).

Definition bind {A B} (c : t A) (k : A -> t B) : t B :=
  fun tr =>
    match c tr with
    | (tr', Returned a) => k a tr'
    | (tr', Thrown e) => (tr', Thrown e)
    end.

Definition emit (e : Effect) : t unit := fun tr => (tr ++ [e], Returned tt).

(** [try { body } catch (err) { handler }] *)
Definition try_catch {A} (body : t A) (handler : Err -> t A) : t A :=
  fun tr =>
    match body tr with
    | (tr', Returned a) => (tr', Returned a)
    | (tr', Thrown e) => handler e tr'
    end.

(** [await mutation(arg).unwrap()]: the request goes out, then the
    promise settles; a rejection is thrown at the await. *)
Definition await_unwrap (r : Request) (server : Settle) : t unit :=
  fun tr =>
    match server with
    | Fulfilled => (tr ++ [Sent r; Resolved], Returned tt)
    | Rejected err => (tr ++ [Sent r; Failed err], Thrown err)
    end.

End Act.

Notation "c1 ;; c2" := (Act.bind c1 (fun _ => c2))
  (at level 61, right associativity).

Definition toast_success (msg : string) : Act.t unit := Act.emit (ToastSuccess msg).
Definition toast_error (msg : string) : Act.t unit := Act.emit (ToastError msg).
Definition navigate (path : string) : Act.t unit := Act.emit (Navigate path).

(** The payload built at the top of [onSubmit] (lines 97-105). *)
Definition buildPayload (formData : Form.values) : FormData :=
  let payload := [] in
  let payload := append payload "name" (Text (Form.name formData)) in
  let payload := append payload "designation" (Text (Form.designation formData)) in
  let payload := append payload "department" (Text (Form.department formData)) in
  let payload := append payload "description" (Text (Form.description formData)) in
  if Js.has_items (Form.image formData)
  then append payload "image" (to_part (Js.item0 (Form.image formData)))
  else payload.

(** [onSubmit] (lines 95-119). [id] is the route parameter the handler
    closes over; [server] is the answer the mutation will get. *)
Definition onSubmit (id : option string) (formData : Form.values)
           (server : Settle) : Act.t unit :=
  Act.try_catch
    (let payload := buildPayload formData in
     (if Js.truthy_param id
      then Act.await_unwrap (UpdateTeam id payload) server ;;
           toast_success "Team member updated successfully!"
      else Act.await_unwrap (CreateTeam payload) server ;;
           toast_success "Team member added successfully!") ;;
     navigate "/team")
    (fun err =>
       toast_error (or_default (err_message err) "Failed to save team member")).

(** ** The component *)

Module TeamForm.

(** Result of [useGetTeamByIdQuery({id}, {skip: !id})]. [Loaded d]
    carries [teamData.data], which the response may lack. *)
Inductive Query :=
| Skipped
| Pending
| Errored
| Loaded (data : option TeamRecord).

(** The form is on screen ([Live]), the router has moved on ([Left]),
    or an effect threw and React tore the component down ([Crashed]). *)
Inductive Phase := Live | Left | Crashed.

Record state := {
  id : option string;            (* useParams().id *)
  teamData : Query;
  values : Form.values;          (* react-hook-form values *)
  errors : Form.errors;          (* formState.errors *)
  existingImage : Js.value;      (* useState(null) *)
  imagePreview : Js.value;       (* useState(null) *)
  reading : nat;                 (* FileReaders started and not yet ended *)
  trace : Trace;
  phase : Phase
}.

Definition mount (id : option string) : state :=
  {| id := id;
     teamData := if Js.truthy_param id then Pending else Skipped;
     values := Form.defaultValues;
     errors := Form.no_errors;
     existingImage := Js.Null;
     imagePreview := Js.Null;
     reading := 0;
     trace := [];
     phase := Live |}.

(** [teamLoading] *)
Definition teamLoading (st : state) : bool :=
  match teamData st with Pending => true | _ => false end.

(** [teamData?.data] *)
Definition data_of (q : Query) : option TeamRecord :=
  match q with Loaded d => d | _ => None end.

(** What the file input's value becomes when the form holds [v] for it:
    react-hook-form keeps any value that is not [undefined] (also [null]
    and a stored reference) and, for [undefined], reads the input itself,
    which holds an empty file list. *)
Definition register_file (v : Js.value) : Js.value :=
  match v with
  | Js.Undefined => Js.Files []
  | _ => v
  end.

(** The form values after [reset] was called with the object of lines
    67-75: the registered inputs take their values from it, [id] and
    [existingImage] are kept as given. *)
Definition reset_values (id : option string) (r : TeamRecord) : Form.values :=
  let image := of_ref (r_image r) in
  {| Form.name := Js.or_empty (r_name r);
     Form.designation := Js.or_empty (r_designation r);
     Form.department := Js.or_empty (r_department r);
     Form.description := Js.or_empty (r_description r);
     Form.image := register_file image;
     Form.id := id;
     Form.existingImage := image |}.

(** The first effect (lines 63-79): [reset] replaces the form values and
    clears the errors, then the stored image is kept in component state. *)
Definition resetEffect (st : state) : state :=
  if Js.truthy_param (id st) then
    match data_of (teamData st) with
    | Some r =>
        {| id := id st; teamData := teamData st;
           values := reset_values (id st) r;
           errors := Form.no_errors;
           existingImage := Js.or_else (of_ref (r_image r)) Js.Null;
           imagePreview := imagePreview st;
           reading := reading st; trace := trace st; phase := phase st |}
    | None => st
    end
  else st.

Definition set_preview (st : state) (p : Js.value) : state :=
  {| id := id st; teamData := teamData st; values := values st;
     errors := errors st; existingImage := existingImage st;
     imagePreview := p;
     reading := reading st; trace := trace st; phase := phase st |}.

Definition start_reader (st : state) : state :=
  {| id := id st; teamData := teamData st; values := values st;
     errors := errors st; existingImage := existingImage st;
     imagePreview := imagePreview st;
     reading := S (reading st); trace := trace st; phase := phase st |}.

Definition crash (st : state) : state :=
  {| id := id st; teamData := teamData st; values := values st;
     errors := errors st; existingImage := existingImage st;
     imagePreview := imagePreview st;
     reading := reading st; trace := trace st; phase := Crashed |}.

(** The second effect (lines 82-93), run when the watched [image] value
    changes. [readAsDataURL] accepts a file and throws a TypeError on
    anything else; the throw is inside the effect, so it is uncaught. *)
Definition previewEffect (st : state) : state :=
  let watchedImage := Form.image (values st) in
  if Js.has_items watchedImage then
    match Js.item0 watchedImage with
    | Js.ItemFile _ => start_reader st
    | _ => crash st
    end
  else set_preview st Js.Null.

(** [reader.onloadend]: [reader.result] is the data URL, or [null] when
    the read failed. *)
Definition onloadend (st : state) (result : option string) : state :=
  match reading st with
  | O => st
  | S n =>
      {| id := id st; teamData := teamData st; values := values st;
         errors := errors st; existingImage := existingImage st;
         imagePreview := match result with
                         | Some url => Js.Str url
                         | None => Js.Null
                         end;
         reading := n; trace := trace st; phase := phase st |}
  end.

Inductive Field := FName | FDesignation | FDepartment | FDescription | FImage.

Definition set_field_text (v : Form.values) (f : Field) (s : string) : Form.values :=
  {| Form.name := match f with FName => s | _ => Form.name v end;
     Form.designation := match f with FDesignation => s | _ => Form.designation v end;
     Form.department := match f with FDepartment => s | _ => Form.department v end;
     Form.description := match f with FDescription => s | _ => Form.description v end;
     Form.image := Form.image v;
     Form.id := Form.id v;
     Form.existingImage := Form.existingImage v |}.

Definition set_field_image (v : Form.values) (i : Js.value) : Form.values :=
  {| Form.name := Form.name v; Form.designation := Form.designation v;
     Form.department := Form.department v; Form.description := Form.description v;
     Form.image := i;
     Form.id := Form.id v;
     Form.existingImage := Form.existingImage v |}.

(** [mode: "onChange"]: a change re-runs the resolver and replaces the
    error of the field that changed. *)
Definition revalidate (old : Form.errors) (f : Field) (v : Form.values) : Form.errors :=
  let new := Yup.validate schema v in
  {| Form.e_name := match f with FName => Form.e_name new | _ => Form.e_name old end;
     Form.e_designation :=
       match f with FDesignation => Form.e_designation new | _ => Form.e_designation old end;
     Form.e_department :=
       match f with FDepartment => Form.e_department new | _ => Form.e_department old end;
     Form.e_description :=
       match f with FDescription => Form.e_description new | _ => Form.e_description old end;
     Form.e_image := match f with FImage => Form.e_image new | _ => Form.e_image old end |}.

Definition change (st : state) (f : Field) (v : Form.values) : state :=
  {| id := id st; teamData := teamData st;
     values := v;
     errors := revalidate (errors st) f v;
     existingImage := existingImage st; imagePreview := imagePreview st;
     reading := reading st; trace := trace st; phase := phase st |}.

(** ** Render (lines 121-341), the parts that depend on state *)

Record select_option := {
  opt_value : string;
  opt_label : string;
  opt_disabled : bool
}.

(** The [<option>]s of the department [<select>] (lines 182-193). *)
Definition departmentOptions : list select_option :=
  [ {| opt_value := ""; opt_label := "Select department"; opt_disabled := true |};
    {| opt_value := "Sales"; opt_label := "Sales"; opt_disabled := false |};
    {| opt_value := "Design"; opt_label := "Design"; opt_disabled := false |};
    {| opt_value := "Development"; opt_label := "Production"; opt_disabled := false |};
    {| opt_value := "Marketing"; opt_label := "Marketing"; opt_disabled := false |};
    {| opt_value := "HR"; opt_label := "Human Resources"; opt_disabled := false |};
    {| opt_value := "Finance"; opt_label := "Finance"; opt_disabled := false |};
    {| opt_value := "Operations"; opt_label := "Operations"; opt_disabled := false |};
    {| opt_value := "Management"; opt_label := "Management"; opt_disabled := false |};
    {| opt_value := "Other"; opt_label := "Other"; opt_disabled := false |} ].

(** A value the user can pick in the [<select>]. *)
Definition selectable (s : string) : bool :=
  existsb (fun o => String.eqb (opt_value o) s && negb (opt_disabled o))
          departmentOptions.

(** The label shown for an option value. *)
Definition label_of (s : string) : option string :=
  option_map opt_label
    (find (fun o => String.eqb (opt_value o) s) departmentOptions).

Definition prop (o : option string) : Js.value :=
  match o with Some s => Js.Str s | None => Js.Undefined end.

(** [existingImage?.public_url || existingImage?.url || existingImage] *)
Definition image_src (v : Js.value) : Js.value :=
  match v with
  | Js.Obj p u => Js.or_else (Js.or_else (prop p) (prop u)) v
  | _ => v
  end.

(** The "Current Image" block and its note (lines 245-268). *)
Record current_image := {
  src : Js.value;
  replace_note : bool
}.

Record form_view := {
  title : string;
  image_required_mark : bool;              (* {!id && *} *)
  options : list select_option;
  shown_errors : Form.errors;
  new_image_preview : option Js.value;     (* src of the preview <img> *)
  current : option current_image;
  upload_instructions : bool;
  submit_label : string
}.

Inductive view :=
| Loader
| FormPage (f : form_view).

Definition render (st : state) : view :=
  if teamLoading st then Loader
  else
    FormPage
      {| title := if Js.truthy_param (id st)
                  then "Update Team Member" else "Add New Team Member";
         image_required_mark := negb (Js.truthy_param (id st));
         options := departmentOptions;
         shown_errors := errors st;
         new_image_preview :=
           if Js.truthy (imagePreview st) then Some (imagePreview st) else None;
         current :=
           if Js.truthy (existingImage st)
           then Some {| src := image_src (existingImage st);
                        replace_note := Js.truthy (imagePreview st) |}
           else None;
         upload_instructions :=
           negb (Js.truthy (imagePreview st)) && negb (Js.truthy (existingImage st));
         submit_label := if Js.truthy_param (id st)
                         then "Update Team Member" else "Add Team Member" |}.

(** ** Events and the step function *)

Inductive Event :=
| FetchFulfilled (data : option TeamRecord)
| FetchRejected
| ChangeName (s : string)
| ChangeDesignation (s : string)
| ChangeDepartment (s : string)
| ChangeDescription (s : string)
| ChangeImage (fs : list Js.File)
| ReaderLoadEnd (result : option string)
| Submit (server : Settle)
| Cancel.

Definition set_teamData (st : state) (q : Query) : state :=
  {| id := id st; teamData := q; values := values st;
     errors := errors st; existingImage := existingImage st;
     imagePreview := imagePreview st;
     reading := reading st; trace := trace st; phase := phase st |}.

(** The guard of the first effect: [id && teamData?.data]. *)
Definition reset_fires (st : state) : bool :=
  Js.truthy_param (id st) &&
  match data_of (teamData st) with Some _ => true | None => false end.

(** The query settles once. React flushes the effects of the re-render
    before the next event is handled, so they are part of the step: the
    reset, and the preview effect on the image value [reset] wrote. *)
Definition fetched (st : state) (q : Query) : state :=
  match teamData st with
  | Pending =>
      let st1 := set_teamData st q in
      if reset_fires st1 then previewEffect (resetEffect st1) else st1
  | _ => st
  end.

Definition is_navigate (e : Effect) : bool :=
  match e with Navigate _ => true | _ => false end.

(** [handleSubmit(onSubmit)]: the resolver validates every field; the
    handler is called with the values only when there is no error.
    Navigating away unmounts the form. *)
Definition handleSubmit (st : state) (server : Settle) : state :=
  let errs := Yup.validate schema (values st) in
  if Form.is_valid errs then
    let effects := fst (onSubmit (id st) (values st) server []) in
    {| id := id st; teamData := teamData st; values := values st;
       errors := errs;
       existingImage := existingImage st; imagePreview := imagePreview st;
       reading := reading st;
       trace := trace st ++ effects;
       phase := if existsb is_navigate effects then Left else Live |}
  else
    {| id := id st; teamData := teamData st; values := values st;
       errors := errs;
       existingImage := existingImage st; imagePreview := imagePreview st;
       reading := reading st; trace := trace st; phase := phase st |}.

(** The Cancel button: [navigate("/team")]. *)
Definition cancel (st : state) : state :=
  {| id := id st; teamData := teamData st; values := values st;
     errors := errors st;
     existingImage := existingImage st; imagePreview := imagePreview st;
     reading := reading st;
     trace := fst (navigate "/team" (trace st));
     phase := Left |}.

(** A click on the submit button. The name input carries the HTML
    [required] attribute (line 141) and the form does not set
    [noValidate], so with an empty name the browser stops the submit
    before any handler runs; otherwise [handleSubmit(onSubmit)] runs. *)
Definition submit (st : state) (server : Settle) : state :=
  if Js.nonempty (Form.name (values st)) then handleSubmit st server else st.

(** An event the user raises on the rendered form. *)
Definition user (st : state) (ev : Event) : state :=
  match ev with
  | ChangeName s => change st FName (set_field_text (values st) FName s)
  | ChangeDesignation s =>
      change st FDesignation (set_field_text (values st) FDesignation s)
  | ChangeDepartment s =>
      if selectable s
      then change st FDepartment (set_field_text (values st) FDepartment s)
      else st
  | ChangeDescription s =>
      change st FDescription (set_field_text (values st) FDescription s)
  | ChangeImage fs =>
      previewEffect (change st FImage (set_field_image (values st) (Js.Files fs)))
  | Submit server => submit st server
  | Cancel => cancel st
  | _ => st
  end.

(** While the query is loading only the loader is rendered, so no form
    event can be raised; once the component is gone nothing reaches it.
    A [Submit] stands for the submit together with the settlement of its
    request: what the user does while the request is in flight is outside
    this step function. *)
Definition step (st : state) (ev : Event) : state :=
  match phase st with
  | Live =>
      match ev with
      | FetchFulfilled d => fetched st (Loaded d)
      | FetchRejected => fetched st Errored
      | ReaderLoadEnd r => onloadend st r
      | _ => if teamLoading st then st else user st ev
      end
  | _ => st
  end.

Fixpoint run (st : state) (evs : list Event) : state :=
  match evs with
  | [] => st
  | ev :: evs' => run (step st ev) evs'
  end.

End TeamForm.

(** A file is selected in the file input. *)
Definition file_selected (v : Js.value) : bool :=
  match v with Js.Files (_ :: _) => true | _ => false end.

(** The image entry of the payload for a selected file. *)
Definition image_entry (v : Js.value) : FormData :=
  match v with Js.Files (f :: _) => [("image", Blob f)] | _ => [] end.

(** The four text entries, in append order. *)
Definition text_entries (v : Form.values) : FormData :=
  [ ("name", Text (Form.name v));
    ("designation", Text (Form.designation v));
    ("department", Text (Form.department v));
    ("description", Text (Form.description v)) ].

(** The error the schema reports for the image field. *)
Definition image_error (v : Form.values) : option string :=
  Form.e_image (Yup.validate schema v).

Definition name_error (v : Form.values) : option string :=
  Form.e_name (Yup.validate schema v).

Import TeamForm.

(** ** Invariant of the reachable states *)

(** Where the form's image value comes from: it is still the value the
    form was (re)initialised with, and if that value has items the preview
    effect has thrown; or it is the [FileList] of the file input. *)
Definition image_origin (st : state) (initial : Js.value) : Prop :=
  (Form.image (values st) = initial /\
   (Js.has_items initial = true -> phase st = Crashed)) \/
  (exists fs, Form.image (values st) = Js.Files fs).

Definition inv (rid : option string) (st : state) : Prop :=
  id st = rid /\
  (Js.truthy_param rid = false -> teamData st = Skipped) /\
  (Js.truthy_param rid = true -> teamData st <> Skipped) /\
  match data_of (teamData st) with
  | Some r =>
      Js.truthy_param rid = true /\
      Form.id (values st) = rid /\
      Form.existingImage (values st) = of_ref (r_image r) /\
      existingImage st = Js.or_else (of_ref (r_image r)) Js.Null /\
      image_origin st (of_ref (r_image r))
  | None =>
      Form.id (values st) = None /\
      Form.existingImage (values st) = Js.Undefined /\
      existingImage st = Js.Null /\
      image_origin st Js.Null
  end.

(** The request [onSubmit] sends for a route parameter and a payload. *)
Definition request_for (id : option string) (payload : FormData) : Request :=
  if Js.truthy_param id then UpdateTeam id payload else CreateTeam payload.

(** A request going out. *)
Definition is_sent (e : Effect) : bool :=
  match e with Sent _ => true | _ => false end.

(** ** Sample data *)

(** The record of the edit scenario: [{name: "John", image: {url: "x.png"}}]. *)
Definition john : TeamRecord :=
  {| r_name := Some "John"; r_designation := None; r_department := None;
     r_description := None; r_image := Some (RefObj None (Some "x.png")) |}.

(** The same record with the image stored as a plain string. *)
Definition john_plain : TeamRecord :=
  {| r_name := Some "John"; r_designation := None; r_department := None;
     r_description := None; r_image := Some (RefStr "x.png") |}.

Definition photo : Js.File := {| Js.file_name := "photo.png" |}.

(** [{data: {message: "Name taken"}}] *)
Definition name_taken : Err :=
  {| data := Some {| message := Some "Name taken" |} |}.

(** ** What a submit adds to the trace *)

(** How the form is left, if it is: it is still there, the user
    cancelled, or a request was fulfilled. *)
Inductive Outcome :=
| Open
| Cancelled
| Saved (payload : FormData).

(** What a rejected submit leaves in the trace. *)
Definition failed_attempt (rid : option string) (a : FormData * Err) : Trace :=
  [Sent (request_for rid (fst a)); Failed (snd a);
   ToastError (or_default (err_message (snd a)) "Failed to save team member")].

(** What ends the trace. *)
Definition closing (rid : option string) (o : Outcome) : Trace :=
  match o with
  | Open => []
  | Cancelled => [Navigate "/team"]
  | Saved payload =>
      [Sent (request_for rid payload); Resolved;
       ToastSuccess (if Js.truthy_param rid
                     then "Team member updated successfully!"
                     else "Team member added successfully!");
       Navigate "/team"]
  end.

(** The user picks at least one file. *)
Definition picks_file (ev : Event) : bool :=
  match ev with ChangeImage (_ :: _) => true | _ => false end.

(** [v === null] *)
Definition is_null (v : Js.value) : bool :=
  match v with Js.Null => true | _ => false end.

(** The condition under which the schema accepts the form values. *)
Definition accepts (v : Form.values) : bool :=
  Js.nonempty (Form.name v) &&
  negb (is_null (Form.image v)) &&
  (Js.truthy_param (Form.id v) && Js.truthy (Form.existingImage v)
   || Js.has_items (Form.image v)).

(** The error of the image field when the bypass is off: none with a
    selected file, yup's null message for a field that was never touched,
    the message of the test otherwise. *)
Definition unbypassed_image_error (i : Js.value) : option string :=
  if file_selected i then None
  else if is_null i then Some "image cannot be null"
  else Some "Image is required".

(** * Properties *)

Lemma inv_mount rid : inv rid (mount rid).
Proof.
  unfold inv, mount, image_origin; simpl.
  destruct (Js.truthy_param rid) eqn:E; simpl; repeat split; try congruence; auto;
    left; split; auto; discriminate.
Qed.

Lemma has_items_Files fs : Js.has_items (Js.Files fs) = file_selected (Js.Files fs).
Proof. destruct fs; reflexivity. Qed.


Lemma image_origin_live st initial :
  phase st = Live -> image_origin st initial ->
  (Form.image (values st) = initial /\ Js.has_items initial = false) \/
  (exists fs, Form.image (values st) = Js.Files fs).
Proof.
  intros Hl [[Hi Hc] | Hf]; [left | right; exact Hf].
  split; [exact Hi |].
  destruct (Js.has_items initial); [| reflexivity].
  rewrite Hc in Hl by reflexivity. discriminate.
Qed.

(** Leaving the form, or touching anything but the values, keeps the
    origin of the image value. *)
Lemma image_origin_keep st st' initial :
  phase st = Live -> values st' = values st ->
  image_origin st initial -> image_origin st' initial.
Proof.
  intros Hl Hv Ho.
  destruct (image_origin_live _ _ Hl Ho) as [[Hi Hn] | Hf]; unfold image_origin;
    rewrite Hv; [left | right; exact Hf].
  split; [exact Hi | rewrite Hn; discriminate].
Qed.

Lemma previewEffect_values st : values (previewEffect st) = values st.
Proof.
  unfold previewEffect.
  destruct (Js.has_items _); [destruct (Js.item0 _) |]; reflexivity.
Qed.

Lemma previewEffect_fixed st :
  id (previewEffect st) = id st /\ teamData (previewEffect st) = teamData st /\
  existingImage (previewEffect st) = existingImage st /\
  trace (previewEffect st) = trace st /\ errors (previewEffect st) = errors st.
Proof.
  unfold previewEffect.
  destruct (Js.has_items _); [destruct (Js.item0 _) |]; simpl; auto.
Qed.

Lemma image_origin_files st fs initial :
  image_origin
    (previewEffect (change st FImage (set_field_image (values st) (Js.Files fs))))
    initial.
Proof. right. exists fs. rewrite previewEffect_values. reflexivity. Qed.


(** A registered value is the value itself, except for [undefined]. *)
Lemma register_file_cases v :
  (v = Js.Undefined /\ register_file v = Js.Files []) \/ register_file v = v.
Proof. destruct v; simpl; auto. Qed.

Lemma has_items_register v : Js.has_items (register_file v) = Js.has_items v.
Proof. destruct v; reflexivity. Qed.

(** A stored reference is never a file: if it has items, the preview
    effect throws on it. *)
Lemma previewEffect_server st r :
  Form.image (values st) = of_ref r ->
  Js.has_items (of_ref r) = true ->
  phase (previewEffect st) = Crashed.
Proof.
  intros Hi Hh. unfold previewEffect. rewrite Hi, Hh.
  destruct r as [[| s | p u]|]; simpl in *; try discriminate.
  destruct s; [discriminate | reflexivity].
Qed.

Lemma inv_fetched rid st q :
  q <> Skipped -> inv rid st -> inv rid (fetched st q).
Proof.
  intros Hq H. unfold fetched.
  destruct (teamData st) eqn:Ht; auto.
  destruct H as (Hid & Hs & Hn & Hd). rewrite Ht in Hd. simpl in Hd.
  destruct (Js.truthy_param rid) eqn:Hr.
  2:{ specialize (Hs eq_refl). congruence. }
  unfold reset_fires. simpl. rewrite Hid, Hr. simpl.
  destruct (data_of q) as [r|] eqn:Hdq.
  - pose proof (previewEffect_fixed (resetEffect (set_teamData st q))) as (Pi & Pt & Pe & _).
    unfold inv. rewrite Pi, Pt, Pe, previewEffect_values.
    unfold resetEffect. simpl. rewrite Hid, Hr, Hdq. simpl. rewrite Hdq.
    repeat split; auto; try congruence.
    unfold image_origin. rewrite previewEffect_values. simpl.
    destruct (register_file_cases (of_ref (r_image r))) as [(Hu & Hf) | Hk].
    + right. exists []. exact Hf.
    + left. split; [exact Hk |].
      intros Hh. apply previewEffect_server with (r := r_image r); auto.
  - unfold inv. simpl. rewrite Hdq, Hr. repeat split; auto; try tauto; try congruence.
Qed.

Lemma inv_onloadend rid st r : inv rid st -> inv rid (onloadend st r).
Proof.
  intros H. unfold onloadend. destruct (reading st); [exact H |].
  exact H.
Qed.

Lemma inv_user rid st ev :
  phase st = Live -> inv rid st -> inv rid (user st ev).
Proof.
  intros Hl H0. pose proof H0 as (Hid & Hs & Hn & Hd).
  assert (K : forall st', id st' = id st -> teamData st' = teamData st ->
            existingImage st' = existingImage st ->
            Form.id (values st') = Form.id (values st) ->
            Form.existingImage (values st') = Form.existingImage (values st) ->
            (forall i, image_origin st i -> image_origin st' i) ->
            inv rid st').
  { intros st' E1 E2 E3 E4 E5 E6. unfold inv. rewrite E1, E2, E3, E4, E5.
    repeat split; auto.
    destruct (data_of (teamData st)); intuition. }
  destruct ev; simpl; try exact H0.
  - destruct (selectable s); exact H0.
  - pose proof (previewEffect_fixed
                  (change st FImage (set_field_image (values st) (Js.Files fs))))
      as (Pi & Pt & Pe & _).
    apply K; auto; try (rewrite previewEffect_values; reflexivity).
    intros; apply image_origin_files.
  - unfold submit. destruct (Js.nonempty _); [| exact H0].
    unfold handleSubmit.
    destruct (Form.is_valid _); apply K; auto;
      intros; eapply image_origin_keep; eauto.
  - apply K; auto. intros; eapply image_origin_keep; eauto.
Qed.

Lemma inv_step rid st ev : inv rid st -> inv rid (step st ev).
Proof.
  intros H. unfold step.
  destruct (phase st) eqn:Hl; auto.
  destruct ev;
    try (destruct (teamLoading st); [exact H | now apply inv_user]).
  - apply inv_fetched; [discriminate | exact H].
  - apply inv_fetched; [discriminate | exact H].
  - now apply inv_onloadend.
Qed.

(** Every state the component can reach satisfies the invariant. *)
Lemma inv_run rid evs : inv rid (run (mount rid) evs).
Proof.
  assert (G : forall st, inv rid st -> inv rid (run st evs)).
  { induction evs as [| ev evs IH]; intros st H; simpl; [exact H |].
    apply IH. now apply inv_step. }
  apply G, inv_mount.
Qed.

Lemma of_ref_not_selected r : file_selected (of_ref r) = false.
Proof. destruct r as [[| s | p u]|]; reflexivity. Qed.

Lemma registered_not_selected r : file_selected (register_file (of_ref r)) = false.
Proof. destruct r as [[| s | p u]|]; reflexivity. Qed.

Lemma has_items_truthy v : Js.has_items v = true -> Js.truthy v = true.
Proof. unfold Js.has_items. intros H. apply andb_prop in H. tauto. Qed.

(** Without the bypass, the only value with items a reachable form can
    hold in its image field is a non-empty [FileList]. *)
Lemma items_are_files_without_bypass rid evs :
  let v := values (run (mount rid) evs) in
  Js.truthy_param (Form.id v) && Js.truthy (Form.existingImage v) = false ->
  Js.has_items (Form.image v) = file_selected (Form.image v).
Proof.
  intros v Hb. subst v.
  destruct (inv_run rid evs) as (_ & _ & _ & Hd).
  set (st := run (mount rid) evs) in *.
  assert (G : forall i, image_origin st i ->
                        (Js.has_items i = true -> Js.truthy i = false) ->
                        file_selected i = false ->
                        Js.has_items (Form.image (values st)) =
                        file_selected (Form.image (values st))).
  { intros i [[Hi _] | [fs Hf]] Hni Hsel.
    - rewrite Hi, Hsel. destruct (Js.has_items i) eqn:E; [| reflexivity].
      rewrite (has_items_truthy _ E) in Hni. now specialize (Hni eq_refl).
    - rewrite Hf. apply has_items_Files. }
  destruct (data_of (teamData st)) as [r|].
  - destruct Hd as (Hr & Hi & He & _ & Ho).
    apply (G _ Ho); [| apply of_ref_not_selected].
    intros _. rewrite Hi, Hr, He in Hb. exact Hb.
  - destruct Hd as (_ & _ & _ & Ho).
    apply (G _ Ho); [discriminate | reflexivity].
Qed.

(** While the form is on screen, likewise. *)
Lemma items_are_files_while_live rid evs :
  let st := run (mount rid) evs in
  phase st = Live ->
  Js.has_items (Form.image (values st)) = file_selected (Form.image (values st)).
Proof.
  intros st Hl.
  destruct (inv_run rid evs) as (_ & _ & _ & Hd). fold st in Hd.
  assert (G : forall i, image_origin st i -> file_selected i = false ->
                        Js.has_items (Form.image (values st)) =
                        file_selected (Form.image (values st))).
  { intros i Ho Hsel.
    destruct (image_origin_live _ _ Hl Ho) as [[Hi Hn] | [fs Hf]].
    - now rewrite Hi, Hn, Hsel.
    - rewrite Hf. apply has_items_Files. }
  destruct (data_of (teamData st)) as [r|].
  - destruct Hd as (_ & _ & _ & _ & Ho). apply (G _ Ho), of_ref_not_selected.
  - destruct Hd as (_ & _ & _ & Ho). now apply (G _ Ho).
Qed.

Lemma image_error_unfold v :
  image_error v =
  if is_null (Form.image v) then Some "image cannot be null"
  else if Js.truthy_param (Form.id v) && Js.truthy (Form.existingImage v) then None
  else if Js.has_items (Form.image v) then None else Some "Image is required".
Proof.
  unfold image_error, Yup.validate, Yup.validate_mixed, schema, image_test. simpl.
  destruct (Form.image v); simpl; try reflexivity;
    destruct (Js.truthy_param (Form.id v) && Js.truthy (Form.existingImage v));
    reflexivity.
Qed.

(** When the bypass is on, the image field of a reachable form is not
    null: it holds the stored reference or a file list. *)
Lemma bypass_image_not_null rid evs :
  let v := values (run (mount rid) evs) in
  Js.truthy_param (Form.id v) && Js.truthy (Form.existingImage v) = true ->
  is_null (Form.image v) = false.
Proof.
  intros v Hb. subst v.
  destruct (inv_run rid evs) as (_ & _ & _ & Hd).
  set (st := run (mount rid) evs) in *.
  destruct (data_of (teamData st)) as [r|].
  - destruct Hd as (_ & _ & He & _ & [[Hi _] | [fs Hf]]).
    + rewrite He in Hb. apply andb_prop in Hb. destruct Hb as (_ & Hb).
      rewrite Hi. destruct (of_ref (r_image r)); try reflexivity; discriminate.
    + now rewrite Hf.
  - destruct Hd as (Hi & _). rewrite Hi in Hb. discriminate.
Qed.

(** The error of the image field on every form the component can reach. *)
Lemma image_error_reachable rid evs :
  let v := values (run (mount rid) evs) in
  image_error v =
  if Js.truthy_param (Form.id v) && Js.truthy (Form.existingImage v) then None
  else unbypassed_image_error (Form.image v).
Proof.
  intros v. rewrite image_error_unfold.
  destruct (Js.truthy_param (Form.id v) && Js.truthy (Form.existingImage v)) eqn:Hb.
  - subst v. now rewrite (bypass_image_not_null rid evs Hb).
  - unfold unbypassed_image_error. subst v.
    rewrite (items_are_files_without_bypass rid evs Hb).
    destruct (Form.image (values (run (mount rid) evs))) as [| | s | p u | [| f fs]];
      reflexivity.
Qed.

Lemma id_run rid evs : id (run (mount rid) evs) = rid.
Proof. exact (proj1 (inv_run rid evs)). Qed.

(** A submit on a rendered form with a name is [handleSubmit]. *)
Lemma step_submit st server :
  phase st = Live -> teamLoading st = false ->
  Js.nonempty (Form.name (values st)) = true ->
  step st (Submit server) = handleSubmit st server.
Proof.
  intros Hl Ht Hn. unfold step. rewrite Hl, Ht. simpl. unfold submit.
  now rewrite Hn.
Qed.

(** With an empty name the browser stops the submit. *)
Lemma step_submit_unnamed st server :
  Js.nonempty (Form.name (values st)) = false ->
  step st (Submit server) = st.
Proof.
  intros Hn. unfold step. destruct (phase st); try reflexivity.
  destruct (teamLoading st); [reflexivity |]. simpl. unfold submit.
  now rewrite Hn.
Qed.

Lemma is_valid_named v :
  Form.is_valid (Yup.validate schema v) = true ->
  Js.nonempty (Form.name v) = true.
Proof.
  unfold Form.is_valid, Yup.validate, Yup.validate_string, schema. simpl.
  destruct (Js.nonempty (Form.name v)); [reflexivity | discriminate].
Qed.

(** When the schema reports an error for the image field, the submit is
    blocked: the error is shown and nothing is sent. *)
Lemma handleSubmit_blocked st server msg :
  image_error (values st) = Some msg ->
  let st' := handleSubmit st server in
  Form.e_image (errors st') = Some msg /\ trace st' = trace st /\
  phase st' = phase st /\ values st' = values st.
Proof.
  intros He. unfold handleSubmit, image_error in *.
  destruct (Yup.validate schema (values st)) as [en eg ep ed ei].
  simpl in He. subst ei. unfold Form.is_valid. simpl.
  destruct en, eg, ep, ed; simpl; auto.
Qed.

(** ** Validation of the image field *)

Lemma unbypassed_none_iff i :
  unbypassed_image_error i = None <-> file_selected i = true.
Proof.
  unfold unbypassed_image_error.
  destruct (file_selected i); [tauto |].
  destruct (is_null i); split; discriminate.
Qed.

(** C1: in create mode, with the name filled in and the file input never
    touched, the image field is still the default [null]; the submit is
    blocked and nothing is sent, but the error shown for the image is yup's
    "image cannot be null" and not the "Image is required" of the test,
    which never runs. The message of the test appears once a file was
    selected and removed again. *)
Theorem untouched_image_reports_null :
  let st := run (mount None) [ChangeName "Jane Doe"] in
  Form.image (values st) = Js.Null /\
  file_selected (Form.image (values st)) = false /\
  let st' := step st (Submit Fulfilled) in
  Form.e_image (errors st') = Some "image cannot be null" /\
  Form.e_image (errors st') <> Some "Image is required" /\
  trace st' = [] /\ phase st' = Live /\
  let cleared :=
    run (mount None)
        [ChangeName "Jane Doe"; ChangeImage [photo]; ChangeImage [];
         Submit Fulfilled] in
  Form.e_image (errors cleared) = Some "Image is required" /\
  trace cleared = [].
Proof.
  simpl. repeat split. discriminate.
Qed.

(** C10: in edit mode the bypass of the image test exists only after the
    reset has run on a fetched record with an image: the hidden id and
    existing image are written by nothing else. While the query is
    pending, after it failed, or when the record carries no image, the
    image field validates exactly as in create mode: it passes if and only
    if a file is selected, with the same error otherwise. *)
Theorem image_bypass_needs_reset (rid : option string) (evs : list Event) :
  Js.truthy_param rid = true ->
  let st := run (mount rid) evs in
  let v := values st in
  (Js.truthy_param (Form.id v) && Js.truthy (Form.existingImage v) = true ->
   exists r, teamData st = Loaded (Some r) /\
             Form.existingImage v = of_ref (r_image r) /\
             Js.truthy (of_ref (r_image r)) = true) /\
  (teamData st = Pending \/ teamData st = Errored \/ teamData st = Loaded None \/
   (exists r, teamData st = Loaded (Some r) /\ Js.truthy (of_ref (r_image r)) = false) ->
   image_error v = unbypassed_image_error (Form.image v) /\
   (image_error v = None <-> file_selected (Form.image v) = true)) /\
  (forall evs',
     let c := values (run (mount None) evs') in
     image_error c = unbypassed_image_error (Form.image c) /\
     (image_error c = None <-> file_selected (Form.image c) = true)).
Proof.
  intros Hedit st v.
  destruct (inv_run rid evs) as (_ & _ & Hn & Hd). fold st in Hn, Hd.
  assert (Hplain : Js.truthy_param (Form.id v) && Js.truthy (Form.existingImage v) = false ->
                   image_error v = unbypassed_image_error (Form.image v) /\
                   (image_error v = None <-> file_selected (Form.image v) = true)).
  { intros Hb.
    assert (E : image_error v = unbypassed_image_error (Form.image v)).
    { subst v st. rewrite image_error_reachable. now rewrite Hb. }
    split; [exact E |]. rewrite E. apply unbypassed_none_iff. }
  split; [| split].
  - intros Hb. destruct (teamData st) as [| | | [r|]] eqn:Ht; simpl in Hd;
      try (destruct Hd as (Hi & _); fold v in Hi; rewrite Hi in Hb; discriminate).
    destruct Hd as (_ & _ & He & _). fold v in He.
    exists r. repeat split; auto.
    rewrite He in Hb. apply andb_prop in Hb. tauto.
  - intros Hc. apply Hplain.
    destruct Hc as [Ht | [Ht | [Ht | [r [Ht Hr]]]]]; rewrite Ht in Hd; simpl in Hd;
      try (destruct Hd as (Hi & _); fold v in Hi; now rewrite Hi).
    destruct Hd as (_ & _ & He & _). fold v in He.
    rewrite He, Hr. apply andb_false_r.
  - intros evs' c.
    destruct (inv_run None evs') as (_ & Hs & _ & Hd').
    rewrite (Hs eq_refl) in Hd'. simpl in Hd'. destruct Hd' as (Hi & _).
    fold c in Hi.
    assert (E : image_error c = unbypassed_image_error (Form.image c)).
    { subst c. rewrite image_error_reachable. now rewrite Hi. }
    split; [exact E |]. rewrite E. apply unbypassed_none_iff.
Qed.

(** Witness of [image_bypass_needs_reset]: the query for id 42 failed, so
    the image field is judged as in create mode and, untouched, fails. *)
Lemma image_bypass_needs_reset_witness :
  image_error (values (run (mount (Some "42")) [FetchRejected; ChangeName "John"])) =
  Some "image cannot be null".
Proof.
  pose proof (image_bypass_needs_reset (Some "42") [FetchRejected; ChangeName "John"]
                                       eq_refl) as (_ & H & _).
  exact (proj1 (H (or_intror (or_introl eq_refl)))).
Defined.

(** ** The submit handler *)

Lemma buildPayload_unfold v :
  buildPayload v =
  text_entries v ++
  (if Js.has_items (Form.image v)
   then [("image", to_part (Js.item0 (Form.image v)))] else []).
Proof.
  unfold buildPayload, text_entries, append. simpl.
  destruct (Js.has_items (Form.image v)); reflexivity.
Qed.

Lemma image_entry_selected i :
  Js.has_items i = file_selected i ->
  (if Js.has_items i then [("image", to_part (Js.item0 i))] else []) = image_entry i.
Proof.
  intros H. rewrite H.
  destruct i as [| | s | p u | [| f fs]]; reflexivity.
Qed.

(** What [onSubmit] adds to the trace, for either answer of the server. *)
Lemma onSubmit_trace id formData server tr :
  onSubmit id formData server tr =
  (tr ++
   match server with
   | Fulfilled =>
       [Sent (request_for id (buildPayload formData)); Resolved;
        ToastSuccess (if Js.truthy_param id
                      then "Team member updated successfully!"
                      else "Team member added successfully!");
        Navigate "/team"]
   | Rejected err =>
       [Sent (request_for id (buildPayload formData)); Failed err;
        ToastError (or_default (err_message err) "Failed to save team member")]
   end,
   Act.Returned tt).
Proof.
  unfold onSubmit, request_for, Act.try_catch, Act.bind, Act.await_unwrap,
    toast_success, toast_error, navigate, Act.emit.
  destruct (Js.truthy_param id), server; simpl;
    repeat rewrite <- app_assoc; reflexivity.
Qed.

(** C2: on a validated submit of a form that is on screen, the payload is
    the four text entries followed by an image entry exactly when a file
    is selected in the file input, and that payload is what is sent; with
    no file selected no entry is keyed "image". In the edit of record 42
    fetched as [john], with only the description changed, the update is
    sent without an image entry. *)
Theorem payload_image_iff_file_selected (rid : option string) (evs : list Event)
        (server : Settle) :
  let st := run (mount rid) evs in
  let v := values st in
  let payload := text_entries v ++ image_entry (Form.image v) in
  (phase st = Live -> teamLoading st = false ->
   Form.is_valid (Yup.validate schema v) = true ->
   buildPayload v = payload /\
   map fst payload =
     ["name"; "designation"; "department"; "description"] ++
     (if file_selected (Form.image v) then ["image"] else []) /\
   exists rest,
     trace (step st (Submit server)) =
     trace st ++ Sent (request_for rid payload) :: rest) /\
  trace (run (mount (Some "42"))
             [FetchFulfilled (Some john); ChangeDescription "Team lead";
              Submit Fulfilled]) =
  [Sent (UpdateTeam (Some "42")
           [("name", Text "John"); ("designation", Text "");
            ("department", Text ""); ("description", Text "Team lead")]);
   Resolved; ToastSuccess "Team member updated successfully!"; Navigate "/team"].
Proof.
  intros st v payload. split; [| reflexivity].
  intros Hl Ht Hv.
  assert (Hp : buildPayload v = payload).
  { rewrite buildPayload_unfold. subst payload. f_equal.
    apply image_entry_selected. subst v st.
    now apply items_are_files_while_live. }
  split; [exact Hp | split].
  - subst payload. rewrite map_app. f_equal.
    destruct (Form.image v) as [| | s | p u | [| f fs]]; reflexivity.
  - rewrite (step_submit _ _ Hl Ht (is_valid_named _ Hv)).
    unfold handleSubmit. fold v. rewrite Hv.
    simpl. rewrite onSubmit_trace, Hp. subst st. rewrite id_run. simpl.
    destruct server; eexists; reflexivity.
Qed.

(** Witness of [payload_image_iff_file_selected]: a create with a file. *)
Lemma payload_image_iff_file_selected_witness :
  buildPayload (values (run (mount None) [ChangeName "Jane Doe"; ChangeImage [photo]])) =
  [("name", Text "Jane Doe"); ("designation", Text ""); ("department", Text "");
   ("description", Text ""); ("image", Blob photo)].
Proof.
  pose proof (payload_image_iff_file_selected
                None [ChangeName "Jane Doe"; ChangeImage [photo]] Fulfilled) as (H & _).
  exact (proj1 (H eq_refl eq_refl eq_refl)).
Defined.

(** In edit mode the fetch of a record runs [reset] with that record. *)
Lemma fetch_resets (s : string) (r : TeamRecord) :
  Js.nonempty s = true ->
  let st := run (mount (Some s)) [FetchFulfilled (Some r)] in
  values st = reset_values (Some s) r /\
  Form.name (values st) = Js.or_empty (r_name r) /\
  Form.designation (values st) = Js.or_empty (r_designation r) /\
  Form.department (values st) = Js.or_empty (r_department r) /\
  Form.description (values st) = Js.or_empty (r_description r) /\
  Form.image (values st) = register_file (of_ref (r_image r)) /\
  existingImage st = Js.or_else (of_ref (r_image r)) Js.Null.
Proof.
  intros Hs. simpl. unfold step, fetched, reset_fires. simpl. rewrite Hs. simpl.
  pose proof (previewEffect_fixed
                (resetEffect (set_teamData (mount (Some s)) (Loaded (Some r)))))
    as (_ & _ & Pe & _).
  rewrite Pe, previewEffect_values.
  unfold resetEffect. simpl. rewrite Hs. simpl. repeat split.
Qed.

(** C3: after the fetch of [john] for id 42 the text fields and the
    existing-image state are initialised from the record, but the form's
    image field is not empty: it holds the stored image reference, with no
    file selected. When the stored image is a plain string, the preview
    effect takes it for a file list and the component is torn down. *)
Theorem reset_puts_stored_image_in_file_field :
  let st := run (mount (Some "42")) [FetchFulfilled (Some john)] in
  Form.name (values st) = "John" /\
  Form.designation (values st) = "" /\
  existingImage st = Js.Obj None (Some "x.png") /\
  Form.image (values st) = Js.Obj None (Some "x.png") /\
  Form.image (values st) <> Form.image Form.defaultValues /\
  file_selected (Form.image (values st)) = false /\
  let st' := run (mount (Some "42")) [FetchFulfilled (Some john_plain)] in
  Form.image (values st') = Js.Str "x.png" /\
  phase st' = Crashed.
Proof.
  simpl. repeat split. discriminate.
Qed.

(** C4: the handler dispatches on the route parameter. Without an id it
    sends the create request with the payload, and on success shows
    "Team member added successfully!" and navigates to "/team"; with an
    id it sends the update request with the id and the payload, shows
    "Team member updated successfully!" and navigates to "/team". *)
Theorem submit_dispatch_by_mode (formData : Form.values) (tr : Trace) :
  fst (onSubmit None formData Fulfilled tr) =
    tr ++ [Sent (CreateTeam (buildPayload formData)); Resolved;
           ToastSuccess "Team member added successfully!"; Navigate "/team"] /\
  (forall s, Js.nonempty s = true ->
     fst (onSubmit (Some s) formData Fulfilled tr) =
       tr ++ [Sent (UpdateTeam (Some s) (buildPayload formData)); Resolved;
              ToastSuccess "Team member updated successfully!"; Navigate "/team"]) /\
  trace (run (mount None)
             [ChangeName "Jane Doe"; ChangeImage [photo]; Submit Fulfilled]) =
    [Sent (CreateTeam
             [("name", Text "Jane Doe"); ("designation", Text "");
              ("department", Text ""); ("description", Text "");
              ("image", Blob photo)]);
     Resolved; ToastSuccess "Team member added successfully!"; Navigate "/team"].
Proof.
  split; [| split].
  - rewrite onSubmit_trace. reflexivity.
  - intros s Hs. rewrite onSubmit_trace. unfold request_for. simpl. rewrite Hs.
    reflexivity.
  - reflexivity.
Qed.

(** Witness of [submit_dispatch_by_mode]: the update of record 42. *)
Lemma submit_dispatch_by_mode_witness :
  fst (onSubmit (Some "42") (reset_values (Some "42") john) Fulfilled []) =
  [Sent (UpdateTeam (Some "42")
           [("name", Text "John"); ("designation", Text "");
            ("department", Text ""); ("description", Text "")]);
   Resolved; ToastSuccess "Team member updated successfully!"; Navigate "/team"].
Proof.
  exact (proj1 (proj2 (submit_dispatch_by_mode (reset_values (Some "42") john) []))
               "42" eq_refl).
Defined.

(** C5: when the request is rejected the handler returns normally (for
    any answer of the server it never throws), shows [err.data.message]
    when there is a non-empty one and "Failed to save team member"
    otherwise, does not navigate, and the submit leaves the form values,
    the image state and the form itself in place. *)
Theorem submit_failure_is_caught (rid : option string) (formData : Form.values)
        (err : Err) (tr : Trace) (st : state) :
  (forall server, snd (onSubmit rid formData server tr) = Act.Returned tt) /\
  (exists msg,
     fst (onSubmit rid formData (Rejected err) tr) =
       tr ++ [Sent (request_for rid (buildPayload formData)); Failed err;
              ToastError msg] /\
     (forall m, err_message err = Some m -> Js.nonempty m = true -> msg = m) /\
     (err_message err = None \/ err_message err = Some "" ->
      msg = "Failed to save team member")) /\
  existsb is_navigate (fst (onSubmit rid formData (Rejected err) [])) = false /\
  (let st' := step st (Submit (Rejected err)) in
   values st' = values st /\ existingImage st' = existingImage st /\
   imagePreview st' = imagePreview st /\ phase st' = phase st) /\
  (let st' := run (mount None)
                  [ChangeName "Jane Doe"; ChangeImage [photo];
                   Submit (Rejected name_taken)] in
   trace st' =
     [Sent (CreateTeam
              [("name", Text "Jane Doe"); ("designation", Text "");
               ("department", Text ""); ("description", Text "");
               ("image", Blob photo)]);
      Failed name_taken; ToastError "Name taken"] /\
   Form.name (values st') = "Jane Doe" /\
   Form.image (values st') = Js.Files [photo] /\
   phase st' = Live).
Proof.
  split; [| split; [| split; [| split]]].
  - intros server. rewrite onSubmit_trace. reflexivity.
  - exists (or_default (err_message err) "Failed to save team member").
    rewrite onSubmit_trace. split; [reflexivity | split].
    + intros m Hm Hn. unfold or_default. now rewrite Hm, Hn.
    + intros [Hm | Hm]; unfold or_default; now rewrite Hm.
  - rewrite onSubmit_trace. reflexivity.
  - unfold step. destruct (phase st) eqn:Hl; auto.
    destruct (teamLoading st); auto.
    simpl. unfold submit. destruct (Js.nonempty _); auto.
    unfold handleSubmit.
    destruct (Form.is_valid _); simpl; auto.
    rewrite onSubmit_trace. simpl. auto.
  - simpl. repeat split.
Qed.

(** Witness of [submit_failure_is_caught]: the create is rejected with
    "Name taken". *)
Lemma submit_failure_is_caught_witness :
  exists msg,
    fst (onSubmit None Form.defaultValues (Rejected name_taken) []) =
      [Sent (CreateTeam (buildPayload Form.defaultValues)); Failed name_taken;
       ToastError msg] /\
    msg = "Name taken".
Proof.
  destruct (proj1 (proj2 (submit_failure_is_caught
                            None Form.defaultValues name_taken [] (mount None))))
    as (msg & H1 & H2 & _).
  exists msg. split; [exact H1 | exact (H2 "Name taken" eq_refl eq_refl)].
Defined.

(** C6: every run of the submit handler sends exactly one request, the
    create or the update one; it navigates exactly when that request was
    fulfilled, and the navigation comes after the request was sent and
    resolved. *)
Theorem one_call_then_navigate (rid : option string) (formData : Form.values)
        (server : Settle) :
  let effects := fst (onSubmit rid formData server []) in
  List.length (filter is_sent effects) = 1 /\
  (exists tl, effects = Sent (request_for rid (buildPayload formData)) :: tl /\
              filter is_sent tl = []) /\
  (existsb is_navigate effects = true <-> server = Fulfilled) /\
  (forall pre post path,
     effects = pre ++ Navigate path :: post ->
     server = Fulfilled /\
     In (Sent (request_for rid (buildPayload formData))) pre /\
     In Resolved pre /\ post = []).
Proof.
  intros effects. subst effects. rewrite onSubmit_trace. simpl.
  destruct server as [| err]; simpl.
  - split; [reflexivity | split; [eexists; split; reflexivity | split]].
    + tauto.
    + intros pre post path H.
      do 3 (destruct pre as [| ? pre]; simpl in H; [discriminate |];
            injection H as ? H; subst).
      destruct pre as [| ? pre]; simpl in H.
      * injection H as _ <-. simpl. tauto.
      * injection H as _ H. destruct pre; discriminate.
  - split; [reflexivity | split; [eexists; split; reflexivity | split]].
    + split; discriminate.
    + intros pre post path H.
      do 3 (destruct pre as [| ? pre]; simpl in H; [discriminate |];
            injection H as _ H).
      destruct pre; discriminate.
Qed.

(** Witness of [one_call_then_navigate]: in a fulfilled create the
    navigation is the last effect and the resolution precedes it. *)
Lemma one_call_then_navigate_witness :
  In Resolved
     [Sent (CreateTeam (buildPayload Form.defaultValues)); Resolved;
      ToastSuccess "Team member added successfully!"].
Proof.
  exact (proj1 (proj2 (proj2
           (proj2 (proj2 (proj2 (one_call_then_navigate
                                   None Form.defaultValues Fulfilled)))
                  [Sent (CreateTeam (buildPayload Form.defaultValues)); Resolved;
                   ToastSuccess "Team member added successfully!"]
                  [] "/team" eq_refl)))).
Defined.

(** ** The text fields *)

(** C7: the name fails with "Name is required" exactly when it is empty,
    a non-empty name carries no error (also right after it is typed), and
    designation, department and description never fail. *)
Theorem name_required_others_optional (v : Form.values) :
  (name_error v = Some "Name is required" <-> Form.name v = "") /\
  (Form.name v <> "" -> name_error v = None) /\
  Form.e_designation (Yup.validate schema v) = None /\
  Form.e_department (Yup.validate schema v) = None /\
  Form.e_description (Yup.validate schema v) = None /\
  (forall st s, phase st = Live -> teamLoading st = false -> s <> "" ->
                Form.e_name (errors (step st (ChangeName s))) = None).
Proof.
  unfold name_error. simpl. unfold Yup.validate_string. simpl.
  repeat split; try (destruct (Form.name v); simpl; congruence).
  intros st s Hl Ht Hs. unfold step. rewrite Hl, Ht. simpl.
  unfold Yup.validate_string. simpl. destruct s; simpl; congruence.
Qed.

(** Witness of [name_required_others_optional]. *)
Lemma name_required_others_optional_witness :
  name_error (reset_values (Some "42") john) = None.
Proof.
  refine (proj1 (proj2 (name_required_others_optional
                          (reset_values (Some "42") john))) _).
  simpl. discriminate.
Defined.

(** ** The department select *)

(** C9: the select offers the empty placeholder (disabled) and the values
    Sales, Design, Development, Marketing, HR, Finance, Operations,
    Management, Other, and nothing else can be picked; the option whose
    value is "Development" is labelled "Production". *)
Theorem department_options_enumerated :
  map opt_value departmentOptions =
    [""; "Sales"; "Design"; "Development"; "Marketing"; "HR"; "Finance";
     "Operations"; "Management"; "Other"] /\
  map opt_value (filter opt_disabled departmentOptions) = [""] /\
  (forall s, selectable s = true <->
             In s ["Sales"; "Design"; "Development"; "Marketing"; "HR"; "Finance";
                   "Operations"; "Management"; "Other"]) /\
  label_of "Development" = Some "Production" /\
  (forall st f, render st = FormPage f -> options f = departmentOptions).
Proof.
  split; [reflexivity | split; [reflexivity | split; [| split; [reflexivity |]]]].
  - intros s. split.
    + unfold selectable. rewrite existsb_exists. intros [o [Hin H]].
      apply andb_prop in H. destruct H as [He Hd].
      apply String.eqb_eq in He. subst s.
      simpl in Hin.
      repeat (destruct Hin as [<- | Hin]; [simpl in *; try discriminate; tauto |]).
      contradiction.
    + intros H. simpl in H.
      repeat (destruct H as [<- | H]; [reflexivity |]).
      contradiction.
  - intros st f. unfold render. destruct (teamLoading st); [discriminate |].
    intros H. injection H as <-. reflexivity.
Qed.

(** ** The image preview *)

(** C8: clearing the file selection sets the preview to null at once;
    selecting (or clearing) a file never touches the existing image,
    neither the component state nor the hidden form value; while a preview
    and an existing image are both present, both are rendered and the
    existing one carries the "will be replaced" note; after the selection
    is cleared the existing image is rendered without the note and without
    a preview. *)
Theorem preview_cleared_existing_kept (st : state) :
  phase st = Live -> teamLoading st = false ->
  imagePreview (step st (ChangeImage [])) = Js.Null /\
  (forall fs,
     existingImage (step st (ChangeImage fs)) = existingImage st /\
     Form.existingImage (values (step st (ChangeImage fs))) =
       Form.existingImage (values st)) /\
  (Js.truthy (imagePreview st) = true -> Js.truthy (existingImage st) = true ->
   exists f, render st = FormPage f /\
             new_image_preview f = Some (imagePreview st) /\
             current f = Some {| src := image_src (existingImage st);
                                 replace_note := true |}) /\
  (Js.truthy (existingImage st) = true ->
   exists f, render (step st (ChangeImage [])) = FormPage f /\
             new_image_preview f = None /\
             current f = Some {| src := image_src (existingImage st);
                                 replace_note := false |}) /\
  (Js.truthy (existingImage st) = false ->
   exists f, render (step st (ChangeImage [])) = FormPage f /\
             new_image_preview f = None /\ current f = None).
Proof.
  intros Hl Ht.
  assert (Hs : forall fs, step st (ChangeImage fs) =
                 previewEffect (change st FImage
                                  (set_field_image (values st) (Js.Files fs)))).
  { intros fs. unfold step. now rewrite Hl, Ht. }
  split; [| split; [| split; [| split]]].
  - rewrite Hs. reflexivity.
  - intros fs. rewrite Hs, previewEffect_values.
    destruct (previewEffect_fixed
                (change st FImage (set_field_image (values st) (Js.Files fs))))
      as (_ & _ & He & _).
    rewrite He. split; reflexivity.
  - intros Hp He. unfold render. rewrite Ht, Hp, He. eexists. repeat split.
  - intros He. rewrite Hs. unfold render, teamLoading in *. simpl.
    rewrite He. destruct (teamData st); try discriminate; eexists; repeat split.
  - intros He. rewrite Hs. unfold render, teamLoading in *. simpl.
    rewrite He. destruct (teamData st); try discriminate; eexists; repeat split.
Qed.

(** Witness of [preview_cleared_existing_kept]: record 42 is loaded, a
    photo is picked and read, then the selection is cleared. *)
Lemma preview_cleared_existing_kept_witness :
  let st := run (mount (Some "42"))
                [FetchFulfilled (Some john); ChangeImage [photo];
                 ReaderLoadEnd (Some "data:image/png;base64,iVBORw0KGgo=")] in
  imagePreview st = Js.Str "data:image/png;base64,iVBORw0KGgo=" /\
  imagePreview (step st (ChangeImage [])) = Js.Null /\
  existingImage (step st (ChangeImage [])) = Js.Obj None (Some "x.png").
Proof.
  pose proof (preview_cleared_existing_kept
                (run (mount (Some "42"))
                     [FetchFulfilled (Some john); ChangeImage [photo];
                      ReaderLoadEnd (Some "data:image/png;base64,iVBORw0KGgo=")])
                eq_refl eq_refl) as (H1 & H2 & _).
  split; [reflexivity | split; [exact H1 | exact (proj1 (H2 []))]].
Defined.

(** A read that was started before the selection was cleared still ends:
    its result becomes the preview although no file is selected any more. *)
Remark late_read_restores_preview :
  let st := run (mount None)
                [ChangeImage [photo]; ChangeImage [];
                 ReaderLoadEnd (Some "data:image/png;base64,iVBORw0KGgo=")] in
  file_selected (Form.image (values st)) = false /\
  imagePreview st = Js.Str "data:image/png;base64,iVBORw0KGgo=".
Proof. split; reflexivity. Qed.

(** * Sessions *)

Lemma run_app st evs1 evs2 : run st (evs1 ++ evs2) = run (run st evs1) evs2.
Proof.
  revert st. induction evs1 as [| ev evs1 IH]; intros st; simpl; [reflexivity |].
  apply IH.
Qed.


Lemma resetEffect_fixed st :
  id (resetEffect st) = id st /\ teamData (resetEffect st) = teamData st /\
  trace (resetEffect st) = trace st /\ phase (resetEffect st) = phase st /\
  imagePreview (resetEffect st) = imagePreview st /\
  reading (resetEffect st) = reading st.
Proof.
  unfold resetEffect.
  destruct (Js.truthy_param (id st)); [destruct (data_of (teamData st)) |];
    simpl; auto 7.
Qed.



(** A submit the schema accepts runs [onSubmit]. *)
Lemma handleSubmit_valid st server :
  Form.is_valid (Yup.validate schema (values st)) = true ->
  let st' := handleSubmit st server in
  trace st' =
    trace st ++
    match server with
    | Fulfilled => closing (id st) (Saved (buildPayload (values st)))
    | Rejected err => failed_attempt (id st) (buildPayload (values st), err)
    end /\
  phase st' = match server with Fulfilled => Left | Rejected _ => Live end /\
  id st' = id st /\ values st' = values st /\ teamData st' = teamData st /\
  existingImage st' = existingImage st /\ imagePreview st' = imagePreview st.
Proof.
  intros Hv. unfold handleSubmit. rewrite Hv. simpl.
  rewrite onSubmit_trace. destruct server; simpl; repeat split.
Qed.

Lemma step_submit_valid st server :
  phase st = Live -> teamLoading st = false ->
  Form.is_valid (Yup.validate schema (values st)) = true ->
  let st' := step st (Submit server) in
  trace st' =
    trace st ++
    match server with
    | Fulfilled => closing (id st) (Saved (buildPayload (values st)))
    | Rejected err => failed_attempt (id st) (buildPayload (values st), err)
    end /\
  phase st' = match server with Fulfilled => Left | Rejected _ => Live end /\
  id st' = id st /\ values st' = values st /\ teamData st' = teamData st /\
  existingImage st' = existingImage st /\ imagePreview st' = imagePreview st.
Proof.
  intros Hl Ht Hv. simpl. rewrite (step_submit _ _ Hl Ht (is_valid_named _ Hv)).
  now apply handleSubmit_valid.
Qed.


Lemma is_valid_accepts v : Form.is_valid (Yup.validate schema v) = accepts v.
Proof.
  unfold accepts, Form.is_valid, Yup.validate, Yup.validate_string,
    Yup.validate_mixed, schema, image_test. simpl.
  destruct (Js.nonempty (Form.name v)),
    (Js.truthy_param (Form.id v) && Js.truthy (Form.existingImage v)),
    (Form.image v) as [| | s | p u | fs]; simpl; try reflexivity;
    destruct (Js.has_items _); reflexivity.
Qed.





(** X3: a click on the submit button of a form on screen sends a request
    exactly when the schema accepts the values (a name, an image field
    that is not null, and the bypass or a selected file). With a name but
    values the schema refuses, nothing is sent, values and form stay and
    the errors of the schema are shown, one of them on the image. With an
    empty name the browser stops the submit and nothing changes at all. *)
Theorem submit_sends_iff_accepted (st : state) (server : Settle) :
  phase st = Live -> teamLoading st = false ->
  let v := values st in
  let st' := step st (Submit server) in
  (accepts v = true ->
   exists rest,
     trace st' = trace st ++ Sent (request_for (id st) (buildPayload v)) :: rest) /\
  (Js.nonempty (Form.name v) = true -> accepts v = false ->
   trace st' = trace st /\ values st' = v /\ phase st' = Live /\
   errors st' = Yup.validate schema v /\ Form.e_image (errors st') <> None) /\
  (Form.name v = "" -> st' = st).
Proof.
  intros Hl Ht v st'. split; [| split].
  - intros Ha. rewrite <- is_valid_accepts in Ha.
    destruct (step_submit_valid st server Hl Ht Ha) as (Htr & _).
    fold st' v in Htr. rewrite Htr.
    destruct server; simpl; eexists; reflexivity.
  - intros Hn Ha. subst st'. rewrite (step_submit _ _ Hl Ht Hn).
    unfold handleSubmit. fold v. rewrite is_valid_accepts, Ha. simpl.
    repeat split; auto.
    change (image_error v <> None). rewrite image_error_unfold.
    unfold accepts in Ha. rewrite Hn in Ha. simpl in Ha.
    destruct (is_null (Form.image v)); [discriminate |]. simpl in Ha.
    destruct (Js.truthy_param (Form.id v) && Js.truthy (Form.existingImage v));
      [discriminate |].
    simpl in Ha. rewrite Ha. discriminate.
  - intros Hn. subst st'. apply step_submit_unnamed. fold v. now rewrite Hn.
Qed.

(** Witness of [submit_sends_iff_accepted]: a create with a name and an
    untouched file input sends nothing. *)
Lemma submit_sends_iff_accepted_witness :
  let st := run (mount None) [ChangeName "Jane Doe"] in
  trace (step st (Submit Fulfilled)) = [] /\
  Form.e_image (errors (step st (Submit Fulfilled))) <> None.
Proof.
  pose proof (proj1 (proj2 (submit_sends_iff_accepted
                              (run (mount None) [ChangeName "Jane Doe"])
                              Fulfilled eq_refl eq_refl))
                    eq_refl eq_refl) as (H1 & _ & _ & _ & H5).
  split; [exact H1 | exact H5].
Defined.

(** X4: a rejected submit leaves the form ready for a retry: submitting
    again sends the same request, and when that one is fulfilled the
    session ends with the success toast and the navigation. *)
Theorem rejected_submit_can_be_retried (st : state) (err : Err) :
  phase st = Live -> teamLoading st = false -> accepts (values st) = true ->
  let st' := run st [Submit (Rejected err); Submit Fulfilled] in
  trace st' =
    trace st ++ failed_attempt (id st) (buildPayload (values st), err)
             ++ closing (id st) (Saved (buildPayload (values st))) /\
  phase st' = Left /\ values st' = values st.
Proof.
  intros Hl Ht Ha. simpl.
  rewrite <- is_valid_accepts in Ha.
  destruct (step_submit_valid st (Rejected err) Hl Ht Ha)
    as (T1 & P1 & I1 & V1 & D1 & _).
  set (st1 := step st (Submit (Rejected err))) in *.
  assert (Ht1 : teamLoading st1 = false) by (unfold teamLoading; now rewrite D1).
  assert (Ha1 : Form.is_valid (Yup.validate schema (values st1)) = true)
    by now rewrite V1.
  destruct (step_submit_valid st1 Fulfilled P1 Ht1 Ha1) as (T2 & P2 & _ & V2 & _).
  rewrite T2, T1, P2, V2, V1, I1, <- app_assoc. auto.
Qed.

(** Witness of [rejected_submit_can_be_retried]. *)
Lemma rejected_submit_can_be_retried_witness :
  phase (run (run (mount None) [ChangeName "Jane Doe"; ChangeImage [photo]])
             [Submit (Rejected name_taken); Submit Fulfilled]) = Left.
Proof.
  exact (proj1 (proj2 (rejected_submit_can_be_retried
                         (run (mount None) [ChangeName "Jane Doe"; ChangeImage [photo]])
                         name_taken eq_refl eq_refl eq_refl))).
Defined.

(** * The preview and the stored image *)

Lemma resetEffect_image st :
  reset_fires st = true ->
  exists r, data_of (teamData st) = Some r /\
            values (resetEffect st) = reset_values (id st) r /\
            existingImage (resetEffect st) = Js.or_else (of_ref (r_image r)) Js.Null.
Proof.
  unfold reset_fires, resetEffect. intros H. apply andb_prop in H.
  destruct H as (Hi & Hd). rewrite Hi.
  destruct (data_of (teamData st)) as [r|]; [| discriminate].
  exists r. simpl. auto.
Qed.

(** The preview effect starts a reader only on a selected file. *)
Lemma previewEffect_idle st :
  file_selected (Form.image (values st)) = false ->
  imagePreview st = Js.Null -> reading st = 0 ->
  imagePreview (previewEffect st) = Js.Null /\ reading (previewEffect st) = 0.
Proof.
  intros Hf Hp Hr. unfold previewEffect.
  destruct (Form.image (values st)) as [| | s | p u | [| f fs]]; simpl in *;
    try discriminate; auto.
  destruct s; simpl; auto.
Qed.

Lemma step_idle st ev :
  picks_file ev = false ->
  imagePreview st = Js.Null -> reading st = 0 ->
  imagePreview (step st ev) = Js.Null /\ reading (step st ev) = 0.
Proof.
  intros He Hp Hr. unfold step.
  destruct (phase st); auto.
  assert (Hf : forall q, imagePreview (fetched st q) = Js.Null /\
                         reading (fetched st q) = 0).
  { intros q. unfold fetched. destruct (teamData st); auto.
    destruct (reset_fires (set_teamData st q)) eqn:Hfire; auto.
    destruct (resetEffect_image _ Hfire) as (r & _ & Hv & _).
    destruct (resetEffect_fixed (set_teamData st q)) as (_ & _ & _ & _ & Rp & Rr).
    apply previewEffect_idle.
    - rewrite Hv. simpl. apply registered_not_selected.
    - now rewrite Rp.
    - now rewrite Rr. }
  destruct ev; auto;
    try (unfold onloadend; rewrite Hr; now auto);
    (destruct (teamLoading st); [now auto |]); simpl; auto.
  - destruct (selectable s); auto.
  - destruct fs; [| discriminate]. apply previewEffect_idle; auto.
  - unfold submit. destruct (Js.nonempty _); auto.
    unfold handleSubmit. destruct (Form.is_valid _); auto.
Qed.

(** X6: as long as the user has not picked a file, there is no new-image
    preview and no reader running: the stored image of a loaded record is
    never shown as the preview, and a stray [loadend] is ignored. *)
Theorem preview_only_from_selected_files (rid : option string) (evs : list Event) :
  forallb (fun ev => negb (picks_file ev)) evs = true ->
  let st := run (mount rid) evs in
  imagePreview st = Js.Null /\ reading st = 0.
Proof.
  intros H. simpl.
  assert (G : forall st, imagePreview st = Js.Null -> reading st = 0 ->
                         imagePreview (run st evs) = Js.Null /\
                         reading (run st evs) = 0).
  { induction evs as [| ev evs IH]; intros st Hp Hr; simpl; [auto |].
    simpl in H. apply andb_prop in H. destruct H as (He & Hrest).
    apply negb_true_iff in He.
    destruct (step_idle st ev He Hp Hr) as (Hp' & Hr').
    now apply IH. }
  now apply G.
Qed.

(** Witness of [preview_only_from_selected_files]: record 42 is loaded, a
    [loadend] arrives, the selection is cleared. *)
Lemma preview_only_from_selected_files_witness :
  imagePreview (run (mount (Some "42"))
                    [FetchFulfilled (Some john);
                     ReaderLoadEnd (Some "data:image/png;base64,iVBORw0KGgo=");
                     ChangeImage []]) = Js.Null.
Proof.
  exact (proj1 (preview_only_from_selected_files
                  (Some "42")
                  [FetchFulfilled (Some john);
                   ReaderLoadEnd (Some "data:image/png;base64,iVBORw0KGgo=");
                   ChangeImage []]
                  eq_refl)).
Defined.

Lemma has_items_of_ref ri :
  Js.has_items (of_ref ri) = true <->
  exists c s, ri = Some (RefStr (String c s)).
Proof.
  split.
  - destruct ri as [[| s | p u]|]; simpl; try discriminate.
    destruct s as [| c s]; [discriminate |]. intros _. now exists c, s.
  - intros (c & s & ->). reflexivity.
Qed.

Lemma step_gone st ev : phase st <> Live -> step st ev = st.
Proof. intros H. unfold step. destruct (phase st); congruence. Qed.

(** On a file list the preview effect never throws. *)
Lemma previewEffect_files st fs :
  Form.image (values st) = Js.Files fs -> phase (previewEffect st) = phase st.
Proof.
  intros H. unfold previewEffect. rewrite H. destruct fs; reflexivity.
Qed.

(** The settling of the query is the only step that can tear the form
    down, and it does so exactly on a stored image with items. *)
Lemma fetched_crash st q :
  teamData st = Pending -> phase st = Live -> Js.truthy_param (id st) = true ->
  teamData (fetched st q) = q /\
  (phase (fetched st q) = Crashed <->
   exists r, q = Loaded (Some r) /\ Js.has_items (of_ref (r_image r)) = true).
Proof.
  intros Hq Hl Hi. unfold fetched. rewrite Hq.
  unfold reset_fires. simpl. rewrite Hi. simpl.
  destruct q as [| | | [r|]]; simpl;
    try (split; [reflexivity |]; rewrite Hl; split;
         [discriminate | intros (r' & H & _); discriminate]).
  destruct (previewEffect_fixed (resetEffect (set_teamData st (Loaded (Some r)))))
    as (_ & Pt & _).
  destruct (resetEffect_fixed (set_teamData st (Loaded (Some r))))
    as (_ & Rt & _ & Rp & _).
  rewrite Pt, Rt. split; [reflexivity |].
  assert (Hv : Form.image (values (resetEffect (set_teamData st (Loaded (Some r))))) =
               register_file (of_ref (r_image r))).
  { unfold resetEffect. simpl. now rewrite Hi. }
  split.
  - intros Hc. exists r. split; [reflexivity |].
    destruct (Js.has_items (of_ref (r_image r))) eqn:E; [reflexivity |].
    unfold previewEffect in Hc. rewrite Hv, has_items_register, E in Hc.
    simpl in Hc. rewrite Rp in Hc. simpl in Hc. congruence.
  - intros (r' & Hr' & Hh). injection Hr' as <-.
    apply previewEffect_server with (r := r_image r); [| exact Hh].
    rewrite Hv.
    destruct (register_file_cases (of_ref (r_image r))) as [(Hu & _) | Hk];
      [| exact Hk].
    rewrite Hu in Hh. discriminate.
Qed.

Lemma fetched_settled st q : teamData st <> Pending -> fetched st q = st.
Proof. unfold fetched. destruct (teamData st); congruence. Qed.

(** No event of the user or of a reader changes the query or tears the
    form down. *)
Lemma step_keeps_query st ev :
  phase st = Live ->
  match ev with FetchFulfilled _ | FetchRejected => False | _ => True end ->
  teamData (step st ev) = teamData st /\ phase (step st ev) <> Crashed.
Proof.
  intros Hl He. unfold step. rewrite Hl.
  assert (Hsame : teamData st = teamData st /\ phase st <> Crashed).
  { rewrite Hl. split; [reflexivity | discriminate]. }
  destruct ev; try contradiction;
    try (unfold onloadend; destruct (reading st); exact Hsame);
    (destruct (teamLoading st); [exact Hsame |]); simpl; try exact Hsame.
  - destruct (selectable s); exact Hsame.
  - destruct (previewEffect_fixed
                (change st FImage (set_field_image (values st) (Js.Files fs))))
      as (_ & Pt & _).
    rewrite Pt, (previewEffect_files _ fs) by reflexivity. exact Hsame.
  - unfold submit. destruct (Js.nonempty _); [| exact Hsame].
    unfold handleSubmit. destruct (Form.is_valid _); simpl; try exact Hsame.
    split; [reflexivity |]. destruct (existsb _ _); discriminate.
  - split; [reflexivity | discriminate].
Qed.

(** X7: the form is torn down by an effect in exactly one situation: the
    record that was fetched stores its image as a non-empty plain string.
    In create mode, after a failed fetch, with an image object or without
    an image, and whatever files the user picks, it never is. *)
Theorem form_crashes_only_on_string_image (rid : option string) (evs : list Event) :
  let st := run (mount rid) evs in
  phase st = Crashed <->
  exists r c s, teamData st = Loaded (Some r) /\
                r_image r = Some (RefStr (String c s)).
Proof.
  simpl.
  assert (J : phase (run (mount rid) evs) = Crashed <->
              exists r, teamData (run (mount rid) evs) = Loaded (Some r) /\
                        Js.has_items (of_ref (r_image r)) = true).
  { induction evs as [| ev evs IH] using rev_ind.
    - simpl. split; [discriminate |].
      intros (r & H & _). destruct (Js.truthy_param rid); discriminate.
    - rewrite run_app. simpl. set (st := run (mount rid) evs) in *.
      assert (Hd : phase st = Live \/ phase st <> Live)
        by (destruct (phase st); [left | right | right]; congruence).
      destruct Hd as [Hl | Hg]; [| now rewrite (step_gone _ ev Hg)].
      assert (Hno : forall r, teamData st = Loaded (Some r) ->
                              Js.has_items (of_ref (r_image r)) = true -> False).
      { intros r H1 H2.
        assert (H : phase st = Crashed) by (apply IH; now exists r). congruence. }
      assert (Hother : teamData (step st ev) = teamData st /\
                       phase (step st ev) <> Crashed ->
                       phase (step st ev) = Crashed <->
                       exists r, teamData (step st ev) = Loaded (Some r) /\
                                 Js.has_items (of_ref (r_image r)) = true).
      { intros (Hq & Hp). rewrite Hq. split; [intros H; contradiction |].
        intros (r & H1 & H2). elim (Hno r H1 H2). }
      assert (Hfetch : forall q, (q = Errored \/ exists d, q = Loaded d) ->
                phase (fetched st q) = Crashed <->
                exists r, teamData (fetched st q) = Loaded (Some r) /\
                          Js.has_items (of_ref (r_image r)) = true).
      { intros q Hq.
        destruct (inv_run rid evs) as (Hid & Hs & _). fold st in Hid, Hs.
        destruct (teamData st) eqn:Ht;
          try (rewrite fetched_settled by congruence; rewrite Hl, Ht;
               split; [discriminate | intros (r & H1 & H2)];
               try discriminate; elim (Hno r H1 H2)).
        assert (Hi : Js.truthy_param (id st) = true).
        { rewrite Hid. destruct (Js.truthy_param rid); [reflexivity |].
          specialize (Hs eq_refl). congruence. }
        destruct (fetched_crash st q Ht Hl Hi) as (Hq' & Hc).
        rewrite Hq', Hc. split; intros (r & H1 & H2); exists r; auto. }
      destruct ev;
        try (apply Hother; apply step_keeps_query; [exact Hl | exact I]).
      + unfold step. rewrite Hl. apply Hfetch. right. now exists data0.
      + unfold step. rewrite Hl. apply Hfetch. now left. }
  rewrite J. split.
  - intros (r & H1 & H2). apply has_items_of_ref in H2.
    destruct H2 as (c & s & H2). now exists r, c, s.
  - intros (r & c & s & H1 & H2). exists r. split; [exact H1 |].
    apply has_items_of_ref. now exists c, s.
Qed.

(** X8: what the edit form shows for the stored image once the record is
    loaded: nothing (and the upload instructions) when the image is
    missing, null or the empty string; for an image object the "Current
    Image" block without the replace note, whose source is the non-empty
    [public_url], else the non-empty [url], else, for an object with
    neither, the object itself and not a string. *)
Theorem current_image_source (s : string) (r : TeamRecord) :
  Js.nonempty s = true ->
  let st := run (mount (Some s)) [FetchFulfilled (Some r)] in
  let shows (v : Js.value) :=
    exists f, render st = FormPage f /\
              current f = Some {| src := v; replace_note := false |} /\
              upload_instructions f = false /\ new_image_preview f = None in
  (Js.truthy (of_ref (r_image r)) = false ->
   exists f, render st = FormPage f /\ current f = None /\
             upload_instructions f = true) /\
  (forall p u, r_image r = Some (RefObj (Some p) u) -> Js.nonempty p = true ->
               shows (Js.Str p)) /\
  (forall p u, r_image r = Some (RefObj p (Some u)) ->
               Js.truthy (prop p) = false -> Js.nonempty u = true ->
               shows (Js.Str u)) /\
  (forall p u, r_image r = Some (RefObj p u) ->
               Js.truthy (prop p) = false -> Js.truthy (prop u) = false ->
               shows (Js.Obj p u)).
Proof.
  intros Hs. destruct s as [| a s]; [discriminate |].
  destruct r as [rn rg rp rd ri]. simpl.
  split; [| split; [| split]].
  - destruct ri as [[| [| c t] | p u]|]; simpl; try discriminate;
      intros _; eexists; repeat split.
  - intros p u -> Hp. destruct p as [| c p]; [discriminate |].
    eexists. repeat split.
  - intros p u -> Hp Hu. destruct u as [| c u]; [discriminate |].
    destruct p as [[| c' p]|]; try discriminate; eexists; repeat split.
  - intros p u -> Hp Hu.
    destruct p as [[| c p]|], u as [[| c' u]|]; try discriminate;
      eexists; repeat split.
Qed.

(** Witness of [current_image_source]: [john]'s image has only a [url]. *)
Lemma current_image_source_witness :
  exists f, render (run (mount (Some "42")) [FetchFulfilled (Some john)]) = FormPage f /\
            current f = Some {| src := Js.Str "x.png"; replace_note := false |} /\
            upload_instructions f = false /\ new_image_preview f = None.
Proof.
  exact (proj1 (proj2 (proj2 (current_image_source "42" john eq_refl)))
               None "x.png" eq_refl eq_refl eq_refl).
Defined.

(** In edit mode, without a loaded record that has an image, the bypass
    of the image test is off and no current image is kept. *)
Lemma no_bypass_without_stored_image rid evs :
  let st := run (mount rid) evs in
  teamData st = Errored \/ teamData st = Loaded None \/
  (exists r, teamData st = Loaded (Some r) /\ Js.truthy (of_ref (r_image r)) = false) ->
  Js.truthy_param (Form.id (values st)) && Js.truthy (Form.existingImage (values st))
    = false /\
  existingImage st = Js.Null.
Proof.
  intros st Hc. destruct (inv_run rid evs) as (_ & _ & _ & Hd). fold st in Hd.
  destruct Hc as [Ht | [Ht | (r & Ht & Hr)]]; rewrite Ht in Hd; simpl in Hd.
  - destruct Hd as (Hi & _ & He & _). now rewrite Hi.
  - destruct Hd as (Hi & _ & He & _). now rewrite Hi.
  - destruct Hd as (_ & _ & Hfe & He & _). rewrite Hfe, He. unfold Js.or_else.
    rewrite Hr. split; [apply andb_false_r | reflexivity].
Qed.

(** X9: in edit mode the "Profile Image" label never carries the required
    mark, yet when the fetch failed or the record has no stored image the
    field is required all the same: the form shows no current image, and
    with a name but no file selected a submit is blocked with an error on
    the image, "image cannot be null" for an untouched field after a
    failed fetch or a null image and "Image is required" otherwise, and
    sends nothing. *)
Theorem edit_without_stored_image_requires_file (rid : option string)
        (evs : list Event) (server : Settle) :
  Js.truthy_param rid = true ->
  let st := run (mount rid) evs in
  phase st = Live ->
  teamData st = Errored \/ teamData st = Loaded None \/
  (exists r, teamData st = Loaded (Some r) /\ Js.truthy (of_ref (r_image r)) = false) ->
  file_selected (Form.image (values st)) = false ->
  (exists f, render st = FormPage f /\ title f = "Update Team Member" /\
             image_required_mark f = false /\ current f = None) /\
  (Js.nonempty (Form.name (values st)) = true ->
   let st' := step st (Submit server) in
   Form.e_image (errors st') =
     (if is_null (Form.image (values st)) then Some "image cannot be null"
      else Some "Image is required") /\
   trace st' = trace st).
Proof.
  intros Hedit st Hl Hc Hsel.
  destruct (no_bypass_without_stored_image rid evs Hc) as (Hb & He).
  fold st in Hb, He.
  assert (Ht : teamLoading st = false).
  { unfold teamLoading. destruct Hc as [-> | [-> | (r & -> & _)]]; reflexivity. }
  split.
  - unfold render. rewrite Ht, He. unfold st at 1 2. rewrite id_run, Hedit.
    eexists. repeat split.
  - intros Hn.
    assert (Herr : image_error (values st) =
                   (if is_null (Form.image (values st))
                    then Some "image cannot be null" else Some "Image is required")).
    { unfold st. rewrite image_error_reachable. fold st. rewrite Hb.
      unfold unbypassed_image_error. now rewrite Hsel. }
    simpl. rewrite (step_submit _ _ Hl Ht Hn).
    assert (Hsome : exists msg, image_error (values st) = Some msg).
    { rewrite Herr. destruct (is_null _); eexists; reflexivity. }
    destruct Hsome as (msg & Hmsg).
    destruct (handleSubmit_blocked st server _ Hmsg) as (H1 & H2 & _).
    rewrite H1, H2, <- Hmsg, Herr. auto.
Qed.

(** Witness of [edit_without_stored_image_requires_file]: the fetch of
    record 42 failed. *)
Lemma edit_without_stored_image_requires_file_witness :
  Form.e_image (errors (step (run (mount (Some "42")) [FetchRejected; ChangeName "John"])
                             (Submit Fulfilled))) =
  Some "image cannot be null".
Proof.
  exact (proj1 (proj2 (edit_without_stored_image_requires_file
                         (Some "42") [FetchRejected; ChangeName "John"] Fulfilled
                         eq_refl eq_refl (or_introl eq_refl) eq_refl)
                      eq_refl)).
Defined.

(** X10: validation follows the file input on change. Picking a file
    clears the image error at once; clearing the selection raises
    "Image is required" at once unless the form values carry an id and an
    existing image; erasing the name raises "Name is required". *)
Theorem errors_follow_changes (st : state) :
  phase st = Live -> teamLoading st = false ->
  (forall f fs, Form.e_image (errors (step st (ChangeImage (f :: fs)))) = None) /\
  Form.e_image (errors (step st (ChangeImage []))) =
    (if Js.truthy_param (Form.id (values st)) &&
        Js.truthy (Form.existingImage (values st))
     then None else Some "Image is required") /\
  Form.e_name (errors (step st (ChangeName ""))) = Some "Name is required".
Proof.
  intros Hl Ht. unfold step. rewrite Hl, Ht. simpl.
  split; [| split].
  - intros f fs. unfold Yup.validate_mixed, image_test. simpl.
    destruct (Js.truthy_param (Form.id (values st)) &&
              Js.truthy (Form.existingImage (values st))); reflexivity.
  - unfold Yup.validate_mixed, image_test. simpl.
    destruct (Js.truthy_param (Form.id (values st)) &&
              Js.truthy (Form.existingImage (values st))); reflexivity.
  - reflexivity.
Qed.

(** Witness of [errors_follow_changes]: in create mode the selection is
    cleared. *)
Lemma errors_follow_changes_witness :
  Form.e_image (errors (step (run (mount None) [ChangeImage [photo]])
                             (ChangeImage []))) =
  Some "Image is required".
Proof.
  exact (proj1 (proj2 (errors_follow_changes
                         (run (mount None) [ChangeImage [photo]]) eq_refl eq_refl))).
Defined.

(** X11: whatever form values reach [onSubmit], the payload starts with
    the four text entries, empty strings included, and has at most one
    more entry, keyed "image": the first file of a non-empty file list, or,
    because the guard only asks for a positive length, the first character
    of a non-empty string; null, undefined, an image object and an empty
    file list add nothing. *)
Theorem payload_by_image_shape (v : Form.values) :
  buildPayload v =
    text_entries v ++
    match Form.image v with
    | Js.Files (f :: _) => [("image", Blob f)]
    | Js.Str (String c _) => [("image", Text (String c ""))]
    | _ => []
    end /\
  firstn 4 (buildPayload v) = text_entries v /\
  List.length (buildPayload v) <= 5.
Proof.
  rewrite buildPayload_unfold.
  destruct (Form.image v) as [| | [| c s] | p u | [| f fs]]; simpl;
    repeat split; auto.
Qed.
